(** * pubfisher: the resumable Google Scholar scraper

    A shallow embedding of [pubfisher/scrapers.py] ([GScraper],
    [PublicationGScraper]) and of the driving loop of
    [pubfisher/interactive.py] ([scrape_interactive]).

    - The attributes of the scraper object are a record; what lies
      outside it (the cookie jars, which are shared by reference, the
      requests made, the sessions, the delays, the captcha dialogs) is
      the [World].  Jars live in a heap and are named by their index, so
      that a session which takes over the jar of the scraper writes to
      the same object.
    - A generator is taken by what a consumer that pulls it to its end
      sees: the values yielded, in order, then a return or an exception.
      A computation is a function from the state to these and the state
      left ([Gen]).
    - The network and the user answer through an [Env].  The text of a
      page is represented by its parse tree; the extraction of a row
      and the library functions are parameters ([Site]).
    - The [while True] loop of the driver runs on fuel: [None] says that
      the loop is still running when the fuel is used up. *)

From stdpp Require Import base option list strings gmap.
From Stdlib Require Import ZArith QArith DecimalString.

#[local] Open Scope Z_scope.
#[local] Open Scope string_scope.
#[local] Open Scope list_scope.

(** ** What the collaborators provide

    [pubfisher.core] ([Publication], [Document]) and the extraction of
    the fields of a result row sit outside the pagination core, as do
    the libraries.  A [Site] fixes the type of the rows that
    [find_all('div', 'gs_or')] returns and what [_do_scrape] asks of one:
    its [div] of class [gs_ri], its attributes ([None] where the lookup
    raises [KeyError]), the integer the builtin [int] reads from a
    string ([None] where it raises [ValueError]), and the outcome of
    [_publication_from_row] on the inner row and the two identifiers
    (the name of the exception it raises, or the publication it
    builds; it makes no use of the session it is handed).  [quote] is
    the URL quoting of [requests.utils]. *)
Class Site := {
  Publication : Type;
  Row : Type;
  InnerRow : Type;
  find_gs_ri : Row -> InnerRow;
  row_attr : Row -> string -> option string;
  int_of_str : string -> option Z;
  _publication_from_row : InnerRow -> string -> Z -> string + Publication;
  quote : string -> string;
}.

(** Identity of a [RequestsCookieJar] object. *)
Definition loc := nat.

Section Model.
Context `{site : Site}.

(** ** Data model *)

(** A parsed page ([BeautifulSoup]), by what the scraper asks of it. *)
Record Soup := mkSoup {
  (** [soup.find(id='gs_captcha_ccl') is not None] *)
  gs_captcha_ccl : bool;
  (** [soup.find_all('div', 'gs_or')] *)
  gs_or : list Row;
  (** [soup.find(class_='gs_ico gs_ico_nav_next')]: [None] when the page
      has no such element, otherwise the [href] attribute of its parent,
      if the parent has one. *)
  gs_ico_nav_next : option (option string);
}.

Inductive Exception :=
| StopIteration
| AssertionError
| HTTPError (code : Z) (msg : string)
| RequestException (msg : string)
| CaptchaRequiredError
| UserAbandonedCaptchaException
| PyError (name : string)
| ScrapeError (cause : Exception) (continuation_url : option string)
    (failure_soup : Soup) (result_no : Z) (user_agent : option string)
    (cookies : loc).

(** The attributes of a [GScraper] object. *)
Record GScraper := mkGScraper {
  host : string;
  _has_next_page : bool;
  _query_url : option string;
  _next_url : option string;
  _user_agent : option string;
  _cookies : option loc;
  _new_cookies_needed : bool;
}.

(** A [requests.Session], by the jar its [cookies] attribute refers to. *)
Record Session := mkSession { session_cookies : loc }.

(** What [session.get] receives back: the text of a page is represented
    by the tree [html.parser] builds from it. *)
Record Response := mkResponse {
  status_code : Z;
  reason : string;
  text : Soup;
  set_cookie : gmap string string;
}.

Inductive Reply :=
| Responded (resp : Response)
| ConnectionFailed (msg : string).

(** Everything outside the scraper object that the code reads or writes:
    the heap of cookie jars, the GET requests issued so far (URL and
    headers, oldest first), the sessions opened and closed, the pacing
    delays asked for and the captcha dialogs shown. *)
Record World := mkWorld {
  jars : list (gmap string string);
  requests : list (option string * gmap string string);
  opened : nat;
  closed : nat;
  sleeps : list Q;
  captchas : nat;
}.

Record State := mkState { self : GScraper; world : World }.

(** The network and the human in front of the captcha dialog.  The n-th
    GET (counting from 0) for a URL, sent with some headers and cookies,
    is answered by [http_get]; the n-th captcha dialog, opened on the
    failing URL, the captcha page, the user agent and the session
    cookies, ends with [None] when the window is closed unsolved and
    with the unlocked page and the browser's cookies otherwise. *)
Record Env := mkEnv {
  http_get : nat -> option string -> gmap string string ->
             gmap string string -> Reply;
  captcha_dialog : nat -> option string -> Soup -> option string ->
                   gmap string string -> option (Soup * gmap string string);
}.

(** ** Generators

    A generator run to its end: the values yielded, how it ended, and the
    state it left. *)
Definition Gen (A : Type) : Type :=
  State -> list Publication * (Exception + A) * State.

Definition ret {A} (a : A) : Gen A := fun s => ([], inr a, s).
Definition raise {A} (e : Exception) : Gen A := fun s => ([], inl e, s).
Definition yield (x : Publication) : Gen unit := fun s => ([x], inr tt, s).

Definition bind {A B} (m : Gen A) (k : A -> Gen B) : Gen B := fun s =>
  match m s with
  | (out, inl e, s1) => (out, inl e, s1)
  | (out, inr a, s1) =>
      match k a s1 with
      | (out2, r, s2) => (out ++ out2, r, s2)
      end
  end.

Definition gets {A} (f : GScraper -> A) : Gen A :=
  fun s => ([], inr (f (self s)), s).
Definition modify (f : GScraper -> GScraper) : Gen unit :=
  fun s => ([], inr tt, mkState (f (self s)) (world s)).
Definition gets_world {A} (f : World -> A) : Gen A :=
  fun s => ([], inr (f (world s)), s).
Definition modify_world (f : World -> World) : Gen unit :=
  fun s => ([], inr tt, mkState (self s) (f (world s))).
Definition reads {A} (f : State -> A) : Gen A := fun s => ([], inr (f s), s).
Definition update (f : State -> State) : Gen unit :=
  fun s => ([], inr tt, f s).

(** [try: m except: h(e)] *)
Definition try_except {A} (m : Gen A) (h : Exception -> Gen A) : Gen A :=
  fun s =>
  match m s with
  | (out, inl e, s1) =>
      match h e s1 with
      | (out2, r, s2) => (out ++ out2, r, s2)
      end
  | r => r
  end.

(** [try: m finally: f], for an [f] that neither yields nor raises. *)
Definition try_finally {A} (m : Gen A) (f : State -> State) : Gen A :=
  fun s =>
  match m s with
  | (out, r, s1) => (out, r, f s1)
  end.

End Model.

Declare Scope gen_scope.
Delimit Scope gen_scope with gen.
Bind Scope gen_scope with Gen.
Notation "'let!' x ':=' m 'in' k" := (bind m (fun x => k))
  (at level 10, x name, m at level 100, k at level 200) : gen_scope.
Notation "m ;; k" := (bind m (fun _ => k))
  (at level 100, k at level 200, only parsing, right associativity) : gen_scope.

Section Scraper.
Context `{site : Site}.
Variable env : Env.
#[local] Open Scope gen_scope.

(** ** Attribute updates *)

Definition set_host (v : string) (g : GScraper) : GScraper :=
  mkGScraper v (_has_next_page g) (_query_url g) (_next_url g)
             (_user_agent g) (_cookies g) (_new_cookies_needed g).
Definition set__query_url (v : option string) (g : GScraper) : GScraper :=
  mkGScraper (host g) (_has_next_page g) v (_next_url g)
             (_user_agent g) (_cookies g) (_new_cookies_needed g).
Definition set__next_url (v : option string) (g : GScraper) : GScraper :=
  mkGScraper (host g) (_has_next_page g) (_query_url g) v
             (_user_agent g) (_cookies g) (_new_cookies_needed g).
Definition set__user_agent (v : option string) (g : GScraper) : GScraper :=
  mkGScraper (host g) (_has_next_page g) (_query_url g) (_next_url g)
             v (_cookies g) (_new_cookies_needed g).
Definition set__cookies (v : option loc) (g : GScraper) : GScraper :=
  mkGScraper (host g) (_has_next_page g) (_query_url g) (_next_url g)
             (_user_agent g) v (_new_cookies_needed g).
Definition set__new_cookies_needed (v : bool) (g : GScraper) : GScraper :=
  mkGScraper (host g) (_has_next_page g) (_query_url g) (_next_url g)
             (_user_agent g) (_cookies g) v.

Definition set_jars (v : list (gmap string string)) (w : World) : World :=
  mkWorld v (requests w) (opened w) (closed w) (sleeps w) (captchas w).
Definition set_requests (v : list (option string * gmap string string))
    (w : World) : World :=
  mkWorld (jars w) v (opened w) (closed w) (sleeps w) (captchas w).
Definition set_opened (v : nat) (w : World) : World :=
  mkWorld (jars w) (requests w) v (closed w) (sleeps w) (captchas w).
Definition set_closed (v : nat) (w : World) : World :=
  mkWorld (jars w) (requests w) (opened w) v (sleeps w) (captchas w).
Definition set_sleeps (v : list Q) (w : World) : World :=
  mkWorld (jars w) (requests w) (opened w) (closed w) v (captchas w).
Definition set_captchas (v : nat) (w : World) : World :=
  mkWorld (jars w) (requests w) (opened w) (closed w) (sleeps w) v.

(** The contents of the jar object [l]. *)
Definition jar_at (w : World) (l : loc) : gmap string string :=
  default ∅ (jars w !! l).

(** ** [GScraper] *)

(** [GScraper.__init__] *)
Definition GScraper_init (host : string) (user_agent : option string)
    (cookies : option loc) : GScraper :=
  {| host := host;
     _has_next_page := true;
     _query_url := None;
     _next_url := None;
     _user_agent := user_agent;
     _cookies := cookies;
     _new_cookies_needed := false |}.

Definition _absolute_from_relative_url (g : GScraper) (rel_url : string)
    : string :=
  host g +:+ rel_url +:+ "&hl=en".

(** The handler connected to [notify::query-url].  Its own
    [notify('new-cookies-needed')] reaches no handler. *)
Definition _on_query_url_changed (g : GScraper) : GScraper :=
  set__new_cookies_needed false g.

(** [self.notify(prop)]: the only handler the scraper connects is the
    one for the property [query-url]. *)
Definition notify (prop : string) (g : GScraper) : GScraper :=
  if String.eqb prop "query-url" then _on_query_url_changed g else g.

(** Property [user_agent] and its setter. *)
Definition user_agent (g : GScraper) : option string := _user_agent g.
Definition set_user_agent (user_agent : option string) (g : GScraper)
    : GScraper :=
  notify "headers" (set__user_agent user_agent g).

Definition query_url (g : GScraper) : option string := _query_url g.
Definition next_url (g : GScraper) : option string := _next_url g.
Definition new_cookies_needed (g : GScraper) : bool := _new_cookies_needed g.

(** Property [has_next_page]: [self._next_url is not None]. *)
Definition has_next_page (g : GScraper) : bool :=
  match _next_url g with
  | Some _ => true
  | None => false
  end.

Definition cookies (g : GScraper) : option loc := _cookies g.

(** [{'NID', 'GSP'}.issubset(set(cookies.keys()))] *)
Definition has_session_keys (jar : gmap string string) : bool :=
  bool_decide (is_Some (jar !! "NID")) && bool_decide (is_Some (jar !! "GSP")).

(** The setter of the property [cookies]. *)
Definition set_cookies (cookies : loc) (s : State) : State :=
  let g := self s in
  let g :=
    if new_cookies_needed g && has_session_keys (jar_at (world s) cookies)
    then notify "new-cookies-needed" (set__new_cookies_needed false g)
    else g in
  mkState (set__cookies (Some cookies) g) (world s).

(** Truth value of a string or [None]. *)
Definition str_truthy (v : option string) : bool :=
  match v with
  | Some (String _ _) => true
  | _ => false
  end.

(** Property [headers]. *)
Definition headers (g : GScraper) : gmap string string :=
  let headers : gmap string string := {[ "Accepted-Language" := "en-US" ]} in
  if str_truthy (user_agent g)
  then <[ "User-Agent" := default "" (user_agent g) ]> headers
  else headers.

(** [session.get(url, headers=...)]: the request is logged, the reply
    comes from the environment, and the cookies the response sets are
    stored into the jar of the session, in place. *)
Definition session_get (session : Session) (url : option string)
    (headers : gmap string string) : Gen Response := fun s =>
  let w := world s in
  let l := session_cookies session in
  let w1 := set_requests (requests w ++ [(url, headers)]) w in
  match http_get env (length (requests w)) url headers (jar_at w l) with
  | ConnectionFailed msg => ([], inl (RequestException msg), mkState (self s) w1)
  | Responded resp =>
      ([], inr resp,
       mkState (self s)
         (set_jars (<[ l := set_cookie resp ∪ jar_at w l ]> (jars w1)) w1))
  end.

Definition _get_page (session : Session) (url : option string) : Gen Soup :=
  let! h := gets headers in
  let! resp := session_get session url h in
  if Z.eqb (status_code resp) 200
  then ret (text resp)
  else raise (HTTPError (status_code resp) (reason resp)).

(** The replacement of non-breaking spaces and the parse are part of
    the representation of a text by its tree. *)
Definition _get_soup_from_url (session : Session) (url : option string)
    : Gen Soup :=
  let! html := _get_page session url in
  ret html.

(** [requests.Session()]: a new session object with an empty jar of its
    own. *)
Definition requests_Session : Gen Session := fun s =>
  let w := world s in
  ([], inr (mkSession (length (jars w))),
   mkState (self s) (set_opened (S (opened w)) (set_jars (jars w ++ [∅]) w))).

Definition session_close (session : Session) (s : State) : State :=
  mkState (self s) (set_closed (S (closed (world s))) (world s)).

(** Truth value of [self.cookies]: [None] and an empty jar are false. *)
Definition cookies_truthy (s : State) : bool :=
  match cookies (self s) with
  | Some l => negb (size (jar_at (world s) l) =? 0)%nat
  | None => false
  end.

(** The context manager [_create_http_session], applied to the body of
    the [with] block. *)
Definition _create_http_session {A} (body : Session -> Gen A) : Gen A :=
  let! session := requests_Session in
  let! truthy := reads cookies_truthy in
  let! own := gets cookies in
  let session :=
    if truthy then mkSession (default (session_cookies session) own)
    else session in
  try_finally
    (try_except (body session)
       (fun e =>
          modify (set__cookies (Some (session_cookies session))) ;;
          modify (notify "cookies") ;;
          raise e))
    (session_close session).

Definition _find_next_url (page_soup : Soup) : Gen (option string) :=
  match gs_ico_nav_next page_soup with
  | Some parent_href =>
      match parent_href with
      | Some next_page_rel_url =>
          let! g := gets id in
          ret (Some (_absolute_from_relative_url g next_page_rel_url))
      | None => raise (PyError "KeyError")
      end
  | None => ret None
  end.

Definition _set_query_url (query_url : string) : Gen unit :=
  modify (set__query_url (Some query_url)) ;;
  modify (set__next_url (Some query_url)) ;;
  modify (notify "query-url") ;;
  modify (notify "next-url") ;;
  modify (notify "has-next-page").

Definition _soup_contains_captcha (soup : Soup) : bool := gs_captcha_ccl soup.

(** [l[start:]] *)
Definition slice_from {A} (l : list A) (start : Z) : list A :=
  if Z.leb 0 start then drop (Z.to_nat start) l
  else drop (Z.to_nat (Z.of_nat (length l) + start)) l.

(** The body of the [try] block of [PublicationGScraper._do_scrape] on
    one row, up to the [yield]: the exception raised, by its name, or
    the publication to yield. *)
Definition row_outcome (outer_row_soup : Row) : string + Publication :=
  let inner_row_soup := find_gs_ri outer_row_soup in
  match row_attr outer_row_soup "data-cid" with
  | None => inl "KeyError"
  | Some gs_info_id =>
      match row_attr outer_row_soup "data-rp" with
      | None => inl "KeyError"
      | Some data_rp =>
          match int_of_str data_rp with
          | None => inl "ValueError"
          | Some gs_row_id =>
              _publication_from_row inner_row_soup gs_info_id gs_row_id
          end
      end
  end.

(** The [for] loop of [PublicationGScraper._do_scrape] over the rows
    that are left, [result_no] being the number of the first of them. *)
Fixpoint _do_scrape_rows (session : Session) (page_soup : Soup)
    (outer_rows : list Row) (result_no : Z) : Gen unit :=
  match outer_rows with
  | [] => ret tt
  | outer_row_soup :: rest =>
      match row_outcome outer_row_soup with
      | inr publication =>
          yield publication ;;
          _do_scrape_rows session page_soup rest (result_no + 1)
      | inl e =>
          let! url := gets query_url in
          let! ua := gets user_agent in
          raise (ScrapeError (PyError e) url page_soup result_no ua
                   (session_cookies session))
      end
  end.

(** [PublicationGScraper._do_scrape] *)
Definition _do_scrape (session : Session) (page_soup : Soup) (start_at : Z)
    : Gen unit :=
  let outer_rows := slice_from (gs_or page_soup) start_at in
  _do_scrape_rows session page_soup outer_rows start_at.

(** [GScraper.scrape_next_page].  The two checks at its head raise the
    exceptions the source names, [raise StopIteration()] and a failed
    [assert]; since the function is a generator, its caller receives
    the former as the [RuntimeError] Python makes of a [StopIteration]
    that leaves a generator. *)
Definition scrape_next_page (page_soup : option Soup) (start_at : Z)
    : Gen unit :=
  let! more := gets has_next_page in
  if negb more then raise StopIteration else
  let! needed := gets new_cookies_needed in
  if needed then raise AssertionError else
  _create_http_session (fun session =>
    let! page_soup :=
      match page_soup with
      | None =>
          let! url := gets query_url in
          _get_soup_from_url session url
      | Some page_soup => ret page_soup
      end in
    (if _soup_contains_captcha page_soup then
       modify (set__new_cookies_needed true) ;;
       modify (notify "new-cookies-needed") ;;
       let! url := gets next_url in
       let! ua := gets user_agent in
       raise (ScrapeError CaptchaRequiredError url page_soup 0 ua
                (session_cookies session))
     else _do_scrape session page_soup start_at) ;;
    let! found := _find_next_url page_soup in
    modify (set__next_url found) ;;
    modify (notify "next-url") ;;
    match found with
    | None => modify (notify "has-next-page")
    | Some _ => ret tt
    end).

(** ** [PublicationGScraper]: issuing a query *)

Definition query_matches_of_key_words (keywords : string) : Gen unit :=
  let query_url := "/scholar?q=" +:+ quote keywords in
  let! g := gets id in
  _set_query_url (_absolute_from_relative_url g query_url).

Definition query_citations_of_document_id (gs_doc_id : string) : Gen unit :=
  let query_url := "/scholar?&cites=" +:+ quote gs_doc_id in
  let! g := gets id in
  _set_query_url (_absolute_from_relative_url g query_url).

(** ** The interactive driver ([pubfisher/interactive.py]) *)

(** [_solve_captcha]: the dialog is shown on the failing URL, the captcha
    page, the user agent and the cookies of the failed session.  When it
    is closed unsolved the exception is raised; otherwise the cookies of
    the web view are copied into a new jar, returned with the unlocked
    page. *)
Definition _solve_captcha (e : Exception) : Gen (Soup * loc) :=
  match e with
  | ScrapeError _ continuation_url failure_soup _ user_agent cookies =>
      let! w := gets_world id in
      modify_world (set_captchas (S (captchas w))) ;;
      match captcha_dialog env (captchas w) continuation_url failure_soup
              user_agent (jar_at w cookies) with
      | None => raise UserAbandonedCaptchaException
      | Some (unlocked_html, session_cookies) =>
          modify_world (set_jars (jars w ++ [session_cookies])) ;;
          ret (unlocked_html, length (jars w))
      end
  | _ => raise (PyError "AttributeError")
  end.

(** [_sleep_between_requests]: the delay asked for is recorded by its
    mean; the jitter drawn around it is left to the clock. *)
Definition _sleep_between_requests (average_delay : Q) : Gen unit :=
  modify_world (fun w => set_sleeps (sleeps w ++ [average_delay]) w).

(** How one turn of the [while True] loop ends. *)
Inductive Turn :=
| Continue (soup : option Soup) (retries : Z)
| Break.

(** [isinstance(e.cause, gs.CaptchaRequiredError)] *)
Definition cause_is_captcha (e : Exception) : bool :=
  match e with
  | ScrapeError CaptchaRequiredError _ _ _ _ _ => true
  | _ => false
  end.

(** The [except gs.ScrapeError as e] clause. *)
Definition on_ScrapeError (max_retries : Z) (retries : Z) (e : Exception)
    : Gen Turn :=
  let retries := retries + 1 in
  if Z.ltb max_retries retries then raise e else
  if cause_is_captcha e then
    let! solved := _solve_captcha e in
    let unlocked_html := fst solved in
    let new_session_cookies := snd solved in
    update (set_cookies new_session_cookies) ;;
    ret (Continue (Some unlocked_html) retries)
  else
    match e with
    | ScrapeError _ _ failure_soup _ _ _ =>
        ret (Continue (Some failure_soup) retries)
    | _ => raise e
    end.

(** The [else] clause of the [try] statement. *)
Definition on_success (mean_delay : Q) : Gen Turn :=
  let! more := gets has_next_page in
  if more then
    _sleep_between_requests mean_delay ;;
    ret (Continue None 0)
  else ret Break.

(** The body of the [while True] loop: [soup] and [retries] are the
    local variables of [scrape_interactive]. *)
Definition scrape_interactive_turn (mean_delay : Q) (max_retries : Z)
    (soup : option Soup) (retries : Z) : Gen Turn := fun s =>
  match scrape_next_page soup 0 s with
  | (out, inl (ScrapeError c u p n a k), s1) =>
      match on_ScrapeError max_retries retries (ScrapeError c u p n a k) s1 with
      | (out2, r, s2) => (out ++ out2, r, s2)
      end
  | (out, inl e, s1) => (out, inl e, s1)
  | (out, inr tt, s1) =>
      match on_success mean_delay s1 with
      | (out2, r, s2) => (out ++ out2, r, s2)
      end
  end.

(** The loop itself, cut after [fuel] turns: [None] when the loop is
    still running then. *)
Fixpoint scrape_interactive_loop (fuel : nat) (mean_delay : Q)
    (max_retries : Z) (soup : option Soup) (retries : Z) (s : State)
    : option (list Publication * (Exception + unit) * State) :=
  match fuel with
  | O => None
  | S fuel =>
      match scrape_interactive_turn mean_delay max_retries soup retries s with
      | (out, inl e, s1) => Some (out, inl e, s1)
      | (out, inr Break, s1) => Some (out, inr tt, s1)
      | (out, inr (Continue soup retries), s1) =>
          match scrape_interactive_loop fuel mean_delay max_retries
                  soup retries s1 with
          | Some (out2, r, s2) => Some (out ++ out2, r, s2)
          | None => None
          end
      end
  end.

(** [scrape_interactive] *)
Definition scrape_interactive (fuel : nat) (mean_delay : Q)
    (max_retries : Z) (s : State)
    : option (list Publication * (Exception + unit) * State) :=
  let soup := None in
  let retries := 0 in
  scrape_interactive_loop fuel mean_delay max_retries soup retries s.

End Scraper.

(** ** The public operations of a scraper, as calls on a state

    [update_bibtex] is not among them: it reaches the attributes of the
    scraper through [_create_http_session] alone. *)

Inductive Call `{site : Site} :=
| call_set_host (host : string)
| call_set_user_agent (user_agent : option string)
| call_set_cookies (cookies : loc)
| call_query_matches_of_key_words (keywords : string)
| call_query_citations_of_document_id (gs_doc_id : string)
| call_scrape_next_page (page_soup : option Soup) (start_at : Z).

(** The state a call leaves, whether it returns or raises. *)
Definition run_call `{site : Site} (env : Env) (c : Call) (s : State) : State :=
  match c with
  | call_set_host h => mkState (set_host h (self s)) (world s)
  | call_set_user_agent ua => mkState (set_user_agent ua (self s)) (world s)
  | call_set_cookies l => set_cookies l s
  | call_query_matches_of_key_words k => snd (query_matches_of_key_words k s)
  | call_query_citations_of_document_id d =>
      snd (query_citations_of_document_id d s)
  | call_scrape_next_page p n => snd (scrape_next_page env p n s)
  end.

(** Installing a jar that holds both session keys. *)
Definition installs_session_keys `{site : Site} (c : Call) (s : State) : bool :=
  match c with
  | call_set_cookies l => has_session_keys (jar_at (world s) l)
  | _ => false
  end.

(** Issuing a new query. *)
Definition issues_query `{site : Site} (c : Call) : bool :=
  match c with
  | call_query_matches_of_key_words _
  | call_query_citations_of_document_id _ => true
  | _ => false
  end.

(** ** Vocabulary of the properties *)

Section Vocabulary.
Context `{site : Site}.
Variable env : Env.

Definition is_ScrapeError (e : Exception) : bool :=
  match e with
  | ScrapeError _ _ _ _ _ _ => true
  | _ => false
  end.

Definition failure_soup_of (e : Exception) : option Soup :=
  match e with
  | ScrapeError _ _ failure_soup _ _ _ => Some failure_soup
  | _ => None
  end.

(** The faults of a call made outside its precondition: advancing past
    the last page, or while new cookies are needed. *)
Definition precondition_violation (e : Exception) : bool :=
  match e with
  | StopIteration | AssertionError => true
  | _ => false
  end.

(** The pagination cursor. *)
Definition cursor (s : State) : option string * bool :=
  (next_url (self s), has_next_page (self s)).

(** The precondition of [scrape_next_page]. *)
Definition ready (s : State) : Prop :=
  has_next_page (self s) = true /\ new_cookies_needed (self s) = false.

(** The jar a session opened in [s] works on, and what it holds at the
    start. *)
Definition session_jar (s : State) : loc :=
  if cookies_truthy s
  then default (length (jars (world s))) (cookies (self s))
  else length (jars (world s)).

Definition cookies_sent (s : State) : gmap string string :=
  if cookies_truthy s then jar_at (world s) (session_jar s) else ∅.

(** The state once the session of [_create_http_session] is open. *)
Definition session_opened (s : State) : State :=
  mkState (self s)
    (set_opened (S (opened (world s)))
       (set_jars (jars (world s) ++ [∅]) (world s))).

(** What the [except] and [finally] clauses of [_create_http_session]
    make of the state an exception left. *)
Definition session_failed (l : loc) (s : State) : State :=
  session_close (mkSession l)
    (mkState (set__cookies (Some l) (self s)) (world s)).

(** The reply to the GET that [scrape_next_page] issues in [s] when it
    is given no page. *)
Definition first_reply (s : State) : Reply :=
  http_get env (length (requests (world s))) (query_url (self s))
    (headers (self s)) (cookies_sent s).

(** The page [scrape_next_page] works on: the one supplied, or the one
    fetched with status 200. *)
Definition page_in_hand (page_soup : option Soup) (s : State) (p : Soup)
    : Prop :=
  match page_soup with
  | Some q => q = p
  | None =>
      exists resp, first_reply s = Responded resp /\
                   status_code resp = 200 /\ text resp = p
  end.

(** The state in which [scrape_next_page] has its page: the session is
    open and, when no page was supplied, the GET has been made. *)
Definition page_received (page_soup : option Soup) (s : State) : State :=
  match page_soup with
  | Some _ => session_opened s
  | None =>
      snd (session_get env (mkSession (session_jar s)) (query_url (self s))
             (headers (self s)) (session_opened s))
  end.

(** What [_find_next_url] returns or raises on a page. *)
Definition next_link (g : GScraper) (page_soup : Soup)
    : Exception + option string :=
  match gs_ico_nav_next page_soup with
  | Some (Some rel) => inr (Some (_absolute_from_relative_url g rel))
  | Some None => inl (PyError "KeyError")
  | None => inr None
  end.

(** The publications of rows that all decode. *)
Definition decodes (rows : list Row) (pubs : list Publication) : Prop :=
  Forall2 (fun row pub => row_outcome row = inr pub) rows pubs.

(** A reply that is a complete last page: status 200, no captcha, rows
    that all decode, no link to a next page. *)
Definition last_page_reply (r : Reply) (pubs : list Publication) : Prop :=
  exists resp,
    r = Responded resp /\ status_code resp = 200 /\
    _soup_contains_captcha (text resp) = false /\
    decodes (gs_or (text resp)) pubs /\
    gs_ico_nav_next (text resp) = None.

(** A GET that fails, and the exception it ends in. *)
Definition fetch_fault (r : Reply) (e : Exception) : Prop :=
  match r with
  | Responded resp =>
      status_code resp <> 200 /\
      e = HTTPError (status_code resp) (reason resp)
  | ConnectionFailed msg => e = RequestException msg
  end.

(** What the driver resumes with after the failure [e] left the state
    [s1]: the page of the failure, or, after a captcha that the user
    solved, the unlocked page, with the new cookies installed. *)
Definition resumed (e : Exception) (s1 : State) (soup : option Soup)
    (s2 : State) : Prop :=
  if cause_is_captcha e then
    exists unlocked_html new_session_cookies s1',
      _solve_captcha env e s1 =
        ([], inr (unlocked_html, new_session_cookies), s1') /\
      soup = Some unlocked_html /\
      s2 = set_cookies new_session_cookies s1'
  else soup = failure_soup_of e /\ s2 = s1.

(** [n] calls of [scrape_next_page] in a row that each end in a
    [ScrapeError], the driver resuming in between: the records yielded on
    the way, the last failure and the state it left. *)
Inductive failing_run :
    nat -> option Soup -> State -> list Publication -> Exception -> State ->
    Prop :=
| failing_once soup s out e s' :
    scrape_next_page env soup 0 s = (out, inl e, s') ->
    is_ScrapeError e = true ->
    failing_run 1 soup s out e s'
| failing_again n soup s out e s1 soup1 s2 out' e' s' :
    scrape_next_page env soup 0 s = (out, inl e, s1) ->
    is_ScrapeError e = true ->
    resumed e s1 soup1 s2 ->
    failing_run n soup1 s2 out' e' s' ->
    failing_run (S n) soup s (out ++ out') e' s'.







End Vocabulary.

(** ** Scenarios *)

Module Scenario.

(** Rows with the two attributes, when they have them, and a title. *)
Record DemoRow := mkDemoRow {
  data_cid : option string;
  data_rp : option string;
  gs_rt : string;
}.

(** A site whose publications are the titles of its rows. *)
Definition demo_site : Site := {|
  Publication := string;
  Row := DemoRow;
  InnerRow := string;
  find_gs_ri := gs_rt;
  row_attr := fun row key =>
    if String.eqb key "data-cid" then data_cid row
    else if String.eqb key "data-rp" then data_rp row
    else None;
  int_of_str := fun digits => Z.of_int <$> NilZero.int_of_string digits;
  _publication_from_row := fun title _ _ => inr title;
  quote := fun keywords => keywords;
|}.
#[local] Existing Instance demo_site.

Definition row_a : Row := mkDemoRow (Some "cidA") (Some "0") "a".
Definition row_b : Row := mkDemoRow (Some "cidB") (Some "1") "b".
Definition row_c : Row := mkDemoRow (Some "cidC") (Some "0") "c".
(** A row without the attribute [data-cid]. *)
Definition row_broken : Row := mkDemoRow None (Some "1") "x".

Definition first_page : Soup :=
  mkSoup false [row_a; row_b] (Some (Some "/scholar?start=10&q=coq")).
Definition last_page : Soup := mkSoup false [row_c] None.
Definition empty_page : Soup := mkSoup false [] None.
Definition broken_page : Soup := mkSoup false [row_a; row_broken; row_b] None.
Definition captcha_page : Soup := mkSoup true [] None.

Definition nobody (n : nat) (url : option string) (p : Soup)
    (ua : option string) (jar : gmap string string)
    : option (Soup * gmap string string) := None.

Definition solver (n : nat) (url : option string) (p : Soup)
    (ua : option string) (jar : gmap string string)
    : option (Soup * gmap string string) :=
  Some (last_page, {[ "NID" := "n1"; "GSP" := "g1" ]}).

(** Every GET is answered with the same page, and sets one cookie. *)
Definition serves (p : Soup) : Env :=
  mkEnv (fun _ _ _ _ => Responded (mkResponse 200 "OK" p {[ "NID" := "n0" ]}))
        nobody.

(** Every GET is answered with status 503. *)
Definition unavailable : Env :=
  mkEnv (fun _ _ _ _ =>
           Responded (mkResponse 503 "Service Unavailable" empty_page ∅))
        nobody.

(** Every GET is answered with a captcha, which the user solves. *)
Definition challenged : Env :=
  mkEnv (fun _ _ _ _ => Responded (mkResponse 200 "OK" captcha_page ∅)) solver.

Definition fresh : State :=
  mkState (GScraper_init "https://scholar.google.com" None None)
          (mkWorld [] [] 0 0 [] 0).

(** After [query_matches_of_key_words('coq')]. *)
Definition queried : State := snd (query_matches_of_key_words "coq" fresh).

(** After the first page of that query has been scraped. *)
Definition on_second_page : State :=
  snd (scrape_next_page (serves first_page) None 0 queried).

(** Stopped by a captcha. *)
Definition blocked : State :=
  snd (scrape_next_page challenged None 0 queried).

(** The same, once the browser of the dialog has filled a new jar. *)
Definition answered : State :=
  mkState (self blocked)
    (set_jars (jars (world blocked) ++ [{[ "NID" := "n1"; "GSP" := "g1" ]}])
       (world blocked)).

(** The states the three attempts on [broken_page] leave. *)
Definition failed_once : State :=
  snd (scrape_next_page (serves broken_page) None 0 queried).
Definition failed_twice : State :=
  snd (scrape_next_page (serves broken_page) (Some broken_page) 0 failed_once).
Definition failed_thrice : State :=
  snd (scrape_next_page (serves broken_page) (Some broken_page) 0 failed_twice).

Definition query : string := "https://scholar.google.com/scholar?q=coq&hl=en".







End Scenario.

(** * Properties *)

Section Properties.
Context `{site : Site}.
Variable env : Env.

(** ** The session context *)

Lemma jar_at_opened (s : State) (l : loc) :
  jar_at (world (session_opened s)) l = jar_at (world s) l.
Proof.
  unfold jar_at, session_opened. cbn [self world jars set_opened set_jars].
  destruct (jars (world s) !! l) as [j|] eqn:Hl.
  - by rewrite (lookup_app_l_Some _ _ _ _ Hl).
  - apply lookup_ge_None in Hl.
    destruct (decide (l = length (jars (world s)))) as [->|Hne].
    + by rewrite list_lookup_middle.
    + rewrite lookup_ge_None_2; [done|]. rewrite length_app. cbn. lia.
Qed.

Lemma cookies_truthy_opened (s : State) :
  cookies_truthy (session_opened s) = cookies_truthy s.
Proof.
  unfold cookies_truthy.
  change (cookies (self (session_opened s))) with (cookies (self s)).
  destruct (cookies (self s)); [rewrite jar_at_opened|]; done.
Qed.

Lemma cookies_sent_opened (s : State) :
  jar_at (world (session_opened s)) (session_jar s) = cookies_sent s.
Proof.
  unfold cookies_sent. destruct (cookies_truthy s) eqn:Ht.
  - apply jar_at_opened.
  - unfold session_jar. rewrite Ht. unfold jar_at, session_opened.
    cbn [world jars set_opened set_jars]. by rewrite list_lookup_middle.
Qed.

(** The [with] block runs its body on the session jar in the opened
    state; an exception has the jar stored and is passed on, and the
    session is closed either way. *)
Lemma create_http_session_unfold {A} (body : Session -> Gen A) (s : State) :
  _create_http_session body s =
  match body (mkSession (session_jar s)) (session_opened s) with
  | (out, inl e, s1) => (out, inl e, session_failed (session_jar s) s1)
  | (out, inr a, s1) =>
      (out, inr a, session_close (mkSession (session_jar s)) s1)
  end.
Proof.
  unfold _create_http_session, bind, requests_Session, reads, gets,
    try_finally, try_except, modify, raise, session_failed.
  fold (session_opened s).
  rewrite cookies_truthy_opened.
  replace (if cookies_truthy s
           then mkSession
                  (default (session_cookies (mkSession (length (jars (world s)))))
                     (cookies (self (session_opened s))))
           else mkSession (length (jars (world s))))
    with (mkSession (session_jar s))
    by (unfold session_jar; by destruct (cookies_truthy s)).
  destruct (body _ _) as [[out [e|a]] s1]; cbn; rewrite ?app_nil_r; done.
Qed.

(** An exception raised in the [with] block leaves the jar of the
    session as the cookies of the scraper, and the session closed. *)
Lemma create_http_session_captures {A} (body : Session -> Gen A) (s : State)
    out e s' :
  _create_http_session body s = (out, inl e, s') ->
  cookies (self s') = Some (session_jar s) /\
  exists s1, body (mkSession (session_jar s)) (session_opened s)
             = (out, inl e, s1) /\
             closed (world s') = S (closed (world s1)).
Proof.
  rewrite create_http_session_unfold.
  destruct (body _ _) as [[out1 [e1|a]] s1]; intros Heq; simplify_eq.
  split; [done|]. by exists s1.
Qed.

(** A body that leaves the flag alone makes a [with] block that does. *)
Lemma create_http_session_keeps_flag {A} (body : Session -> Gen A)
    (s : State) :
  (forall session s0,
     new_cookies_needed (self (snd (body session s0))) =
     new_cookies_needed (self s0)) ->
  new_cookies_needed (self (snd (_create_http_session body s))) =
  new_cookies_needed (self s).
Proof.
  intros Hbody. rewrite create_http_session_unfold.
  specialize (Hbody (mkSession (session_jar s)) (session_opened s)).
  by destruct (body _ _) as [[out [e|a]] s1].
Qed.

(** ** Fetching *)

Lemma self_page_received (page_soup : option Soup) (s : State) :
  self (page_received env page_soup s) = self s.
Proof.
  destruct page_soup; [done|]. unfold page_received, session_get.
  by destruct (http_get _ _ _ _ _).
Qed.

Lemma requests_page_received (page_soup : option Soup) (s : State) :
  requests (world (page_received env page_soup s)) =
  match page_soup with
  | Some _ => requests (world s)
  | None => requests (world s) ++ [(query_url (self s), headers (self s))]
  end.
Proof.
  destruct page_soup; [done|]. unfold page_received, session_get.
  by destruct (http_get _ _ _ _ _).
Qed.

Lemma sleeps_page_received (page_soup : option Soup) (s : State) :
  sleeps (world (page_received env page_soup s)) = sleeps (world s).
Proof.
  destruct page_soup; [done|]. unfold page_received, session_get.
  by destruct (http_get _ _ _ _ _).
Qed.

Lemma get_soup_from_url_200 session url (s : State) resp :
  http_get env (length (requests (world s))) url (headers (self s))
    (jar_at (world s) (session_cookies session)) = Responded resp ->
  status_code resp = 200 ->
  _get_soup_from_url env session url s =
  ([], inr (text resp),
   snd (session_get env session url (headers (self s)) s)).
Proof.
  intros Hresp Hstatus.
  unfold _get_soup_from_url, _get_page, bind, gets, session_get.
  cbn [self]. rewrite Hresp, Hstatus. done.
Qed.

(** ** Decoding a page *)

Lemma do_scrape_rows_state session page_soup rows n (s : State) :
  snd (_do_scrape_rows session page_soup rows n s) = s.
Proof.
  revert n. induction rows as [|row rows IH]; intros n; [done|].
  cbn [_do_scrape_rows]. destruct (row_outcome row) as [name|pub].
  - done.
  - unfold bind, yield. specialize (IH (n + 1)).
    by destruct (_do_scrape_rows _ _ _ _ _) as [[out r] s2].
Qed.

Lemma do_scrape_state session page_soup start_at (s : State) :
  snd (_do_scrape session page_soup start_at s) = s.
Proof. apply do_scrape_rows_state. Qed.

Lemma do_scrape_rows_decodes session page_soup rows pubs n (s : State) :
  decodes rows pubs ->
  _do_scrape_rows session page_soup rows n s = (pubs, inr tt, s).
Proof.
  intros Hd. revert n. induction Hd as [|row pub rows pubs Hrow _ IH]; intros n.
  - done.
  - cbn [_do_scrape_rows]. rewrite Hrow. unfold bind, yield. by rewrite IH.
Qed.

Lemma do_scrape_rows_fault session page_soup before pubs bad rest name n
    (s : State) :
  decodes before pubs ->
  row_outcome bad = inl name ->
  _do_scrape_rows session page_soup (before ++ bad :: rest) n s =
  (pubs,
   inl (ScrapeError (PyError name) (query_url (self s)) page_soup
          (n + Z.of_nat (length before)) (user_agent (self s))
          (session_cookies session)),
   s).
Proof.
  intros Hd Hbad. revert n.
  induction Hd as [|row pub rows pubs Hrow _ IH]; intros n.
  - cbn. rewrite Hbad. unfold bind, gets, raise. cbn. by rewrite Z.add_0_r.
  - cbn [app _do_scrape_rows]. rewrite Hrow. unfold bind, yield.
    rewrite IH. cbn [length]. do 4 f_equal. lia.
Qed.

(** Started at the offset of a row, [_do_scrape] works on that row and
    the ones after it, numbered from the offset. *)
Lemma do_scrape_at_offset session (page_soup : Soup) before rest (s : State) :
  gs_or page_soup = before ++ rest ->
  _do_scrape session page_soup (Z.of_nat (length before)) s =
  _do_scrape_rows session page_soup rest (Z.of_nat (length before)) s.
Proof.
  intros Hrows. unfold _do_scrape, slice_from.
  rewrite (proj2 (Z.leb_le _ _)) by lia.
  by rewrite Nat2Z.id, Hrows, drop_app_length.
Qed.

Lemma find_next_url_spec page_soup (s : State) :
  _find_next_url page_soup s = ([], next_link (self s) page_soup, s).
Proof.
  unfold _find_next_url, next_link.
  by destruct (gs_ico_nav_next page_soup) as [[rel|]|].
Qed.

(** ** One call of [scrape_next_page] *)

Lemma scrape_next_page_gated (page_soup : option Soup) (start_at : Z)
    (s : State) :
  new_cookies_needed (self s) = true ->
  scrape_next_page env page_soup start_at s =
  ([], inl (if has_next_page (self s) then AssertionError else StopIteration),
   s).
Proof.
  intros Hneeded. unfold scrape_next_page, bind, gets.
  destruct (has_next_page (self s)); cbn; [by rewrite Hneeded|done].
Qed.

Lemma scrape_next_page_exhausted (page_soup : option Soup) (start_at : Z)
    (s : State) :
  has_next_page (self s) = false ->
  scrape_next_page env page_soup start_at s = ([], inl StopIteration, s).
Proof.
  intros Hmore. unfold scrape_next_page, bind, gets. by rewrite Hmore.
Qed.

(** The call on a state that meets the precondition, once the page is
    in hand. *)
Lemma scrape_next_page_ready (page_soup : option Soup) (start_at : Z)
    (s : State) (p : Soup) :
  ready s -> page_in_hand env page_soup s p ->
  scrape_next_page env page_soup start_at s =
  let l := session_jar s in
  let s1 := page_received env page_soup s in
  if _soup_contains_captcha p then
    ([], inl (ScrapeError CaptchaRequiredError (next_url (self s)) p 0
                (user_agent (self s)) l),
     session_failed l
       (mkState (set__new_cookies_needed true (self s)) (world s1)))
  else
    match _do_scrape (mkSession l) p start_at s1 with
    | (out, inl e, _) => (out, inl e, session_failed l s1)
    | (out, inr _, _) =>
        match next_link (self s) p with
        | inl e => (out, inl e, session_failed l s1)
        | inr found =>
            (out, inr tt,
             session_close (mkSession l)
               (mkState (set__next_url found (self s)) (world s1)))
        end
    end.
Proof.
  intros [Hmore Hneeded] Hpage.
  unfold scrape_next_page.
  unfold bind at 1, gets at 1. rewrite Hmore. cbn [negb].
  unfold bind at 1, gets at 1. rewrite Hneeded. cbn [app].
  rewrite create_http_session_unfold.
  cbv zeta.
  assert (Hgot :
    (match page_soup with
     | Some q => ret q
     | None =>
         bind (gets query_url)
           (fun url => _get_soup_from_url env (mkSession (session_jar s)) url)
     end) (session_opened s) = ([], inr p, page_received env page_soup s)).
  { destruct page_soup as [q|]; cbn in Hpage.
    - by subst.
    - destruct Hpage as (resp & Hresp & Hstatus & Htext).
      unfold first_reply in Hresp. rewrite <- cookies_sent_opened in Hresp.
      unfold bind at 1, gets at 1. cbn [self session_opened].
      rewrite (get_soup_from_url_200 (mkSession (session_jar s))
                 (query_url (self s)) (session_opened s) resp Hresp Hstatus).
      by rewrite Htext. }
  unfold bind at 1. rewrite Hgot.
  pose proof (self_page_received page_soup s) as Hself.
  destruct (_soup_contains_captcha p).
  - unfold bind, modify, gets, raise. cbn. rewrite Hself. done.
  - unfold bind at 1.
    pose proof (do_scrape_state (mkSession (session_jar s)) p start_at
                  (page_received env page_soup s)) as Hkeep.
    destruct (_do_scrape _ _ _ _) as [[out [e|[]]] s2]; cbn in Hkeep; subst s2;
      [done|].
    unfold bind at 1. rewrite find_next_url_spec, Hself.
    destruct (next_link (self s) p) as [e|found].
    + by rewrite !app_nil_r.
    + unfold bind, modify. cbn. rewrite Hself.
      destruct found; cbn; by rewrite !app_nil_r.
Qed.

(** A GET that fails is passed on as it is: the call ends in the
    [HTTPError], or in the exception of [requests]. *)
Lemma scrape_next_page_fetch_fault (start_at : Z) (s : State) (e : Exception) :
  ready s ->
  fetch_fault (first_reply env s) e ->
  scrape_next_page env None start_at s =
  ([], inl e, session_failed (session_jar s) (page_received env None s)).
Proof.
  intros [Hmore Hneeded] He.
  unfold scrape_next_page.
  unfold bind at 1, gets at 1. rewrite Hmore. cbn [negb].
  unfold bind at 1, gets at 1. rewrite Hneeded. cbn [app].
  rewrite create_http_session_unfold.
  unfold fetch_fault, first_reply in He. rewrite <- cookies_sent_opened in He.
  unfold page_received.
  unfold bind at 1. unfold bind at 1, gets at 1. cbn [self session_opened].
  unfold _get_soup_from_url, _get_page.
  unfold bind at 1. unfold bind at 1, gets at 1.
  unfold bind at 1. unfold session_get.
  cbn [self session_opened session_cookies].
  change (requests (world (session_opened s))) with (requests (world s)) in *.
  fold (session_opened s).
  destruct (http_get _ _ _ _ _) as [resp|msg].
  - destruct He as [Hstatus ->].
    apply Z.eqb_neq in Hstatus. rewrite Hstatus. done.
  - by subst.
Qed.

(** A GET either brings a page or fails. *)
Lemma first_reply_cases (s : State) :
  (exists p, page_in_hand env None s p) \/
  (exists e, fetch_fault (first_reply env s) e).
Proof.
  unfold page_in_hand, fetch_fault.
  destruct (first_reply env s) as [resp|msg]; [|by eauto].
  destruct (decide (status_code resp = 200)); [left|right]; eauto.
Qed.

(** The one GET of a call without a page asks for [query_url]. *)
Lemma scrape_next_page_requests (start_at : Z) (s : State) :
  ready s ->
  requests (world (snd (scrape_next_page env None start_at s))) =
  requests (world s) ++ [(query_url (self s), headers (self s))].
Proof.
  intros Hready.
  destruct (first_reply_cases s) as [[p Hpage]|[e He]].
  - rewrite (scrape_next_page_ready None start_at s p Hready Hpage).
    cbv zeta.
    destruct (_soup_contains_captcha p);
      [|destruct (_do_scrape _ _ _ _) as [[out [e|[]]] s2];
        [|destruct (next_link _ _)]];
      cbn [snd session_failed session_close world requests set_closed];
      by rewrite (requests_page_received None).
  - rewrite (scrape_next_page_fetch_fault start_at s e Hready He).
    cbn [snd session_failed session_close world requests set_closed].
    by rewrite (requests_page_received None).
Qed.

(** A row that fails to decode, the rows before it having decoded. *)
Lemma scrape_next_page_decode_fault (page_soup : option Soup) (start_at : Z)
    (s : State) (p : Soup) before bad rest pubs name :
  ready s -> page_in_hand env page_soup s p ->
  _soup_contains_captcha p = false ->
  slice_from (gs_or p) start_at = before ++ bad :: rest ->
  decodes before pubs ->
  row_outcome bad = inl name ->
  scrape_next_page env page_soup start_at s =
  (pubs,
   inl (ScrapeError (PyError name) (query_url (self s)) p
          (start_at + Z.of_nat (length before)) (user_agent (self s))
          (session_jar s)),
   session_failed (session_jar s) (page_received env page_soup s)).
Proof.
  intros Hready Hpage Hcaptcha Hrows Hbefore Hbad.
  rewrite (scrape_next_page_ready page_soup start_at s p Hready Hpage).
  cbv zeta. rewrite Hcaptcha.
  unfold _do_scrape. rewrite Hrows.
  rewrite (do_scrape_rows_fault _ _ _ _ _ _ _ _ _ Hbefore Hbad).
  by rewrite self_page_received.
Qed.

(** A call that returns has not assigned the cookies of the scraper. *)
Lemma scrape_next_page_return_keeps_cookies (page_soup : option Soup)
    (start_at : Z) (s : State) out s' :
  scrape_next_page env page_soup start_at s = (out, inr tt, s') ->
  cookies (self s') = cookies (self s).
Proof.
  destruct (has_next_page (self s)) eqn:Hmore;
    [|rewrite scrape_next_page_exhausted by done; congruence].
  destruct (new_cookies_needed (self s)) eqn:Hneeded;
    [rewrite scrape_next_page_gated by done; congruence|].
  assert (Hready : ready s) by done.
  assert (Hwith : forall p, page_in_hand env page_soup s p ->
            scrape_next_page env page_soup start_at s = (out, inr tt, s') ->
            cookies (self s') = cookies (self s)).
  { intros p Hpage.
    rewrite (scrape_next_page_ready page_soup start_at s p Hready Hpage).
    cbv zeta.
    destruct (_soup_contains_captcha p);
      [|destruct (_do_scrape _ _ _ _) as [[out1 [e1|[]]] s2];
        [|destruct (next_link _ _)]];
      intros Heq; by simplify_eq. }
  destruct page_soup as [p|]; [by apply (Hwith p)|].
  destruct (first_reply_cases s) as [[p Hpage]|[e He]]; [by apply (Hwith p)|].
  rewrite (scrape_next_page_fetch_fault start_at s e Hready He). congruence.
Qed.

Lemma cursor_session_failed l (s : State) :
  cursor (session_failed l s) = cursor s.
Proof. done. Qed.

Lemma cursor_page_received (page_soup : option Soup) (s : State) :
  cursor (page_received env page_soup s) = cursor s.
Proof. unfold cursor. by rewrite self_page_received. Qed.

(** Whatever exception ends a call, the cursor is where it was. *)
Lemma scrape_next_page_raise_keeps_cursor (page_soup : option Soup)
    (start_at : Z) (s : State) out e s' :
  scrape_next_page env page_soup start_at s = (out, inl e, s') ->
  cursor s' = cursor s.
Proof.
  destruct (has_next_page (self s)) eqn:Hmore;
    [|rewrite scrape_next_page_exhausted by done; congruence].
  destruct (new_cookies_needed (self s)) eqn:Hneeded;
    [rewrite scrape_next_page_gated by done; congruence|].
  assert (Hready : ready s) by done.
  assert (Hwith : forall p, page_in_hand env page_soup s p ->
            scrape_next_page env page_soup start_at s = (out, inl e, s') ->
            cursor s' = cursor s).
  { intros p Hpage.
    rewrite (scrape_next_page_ready page_soup start_at s p Hready Hpage).
    cbv zeta.
    destruct (_soup_contains_captcha p);
      [|destruct (_do_scrape _ _ _ _) as [[out1 [e1|[]]] s2];
        [|destruct (next_link _ _)]];
      intros Heq; simplify_eq; rewrite cursor_session_failed;
      [done|apply cursor_page_received..]. }
  destruct page_soup as [p|]; [by apply (Hwith p)|].
  destruct (first_reply_cases s) as [[p Hpage]|[e1 He]]; [by apply (Hwith p)|].
  rewrite (scrape_next_page_fetch_fault start_at s e1 Hready He).
  intros Heq; simplify_eq.
  by rewrite cursor_session_failed, cursor_page_received.
Qed.

(** ** The driver, turn by turn *)

Lemma turn_success mean_delay max_retries soup retries (s : State) out s1 :
  scrape_next_page env soup 0 s = (out, inr tt, s1) ->
  scrape_interactive_turn env mean_delay max_retries soup retries s =
  if has_next_page (self s1)
  then (out, inr (Continue None 0),
        snd (_sleep_between_requests mean_delay s1))
  else (out, inr Break, s1).
Proof.
  intros Hok. unfold scrape_interactive_turn. rewrite Hok.
  unfold on_success, bind, gets.
  destruct (has_next_page (self s1)); cbn; by rewrite app_nil_r.
Qed.

Lemma turn_failure_over_budget mean_delay max_retries soup retries (s : State)
    out e s1 :
  scrape_next_page env soup 0 s = (out, inl e, s1) ->
  is_ScrapeError e = true ->
  max_retries < retries + 1 ->
  scrape_interactive_turn env mean_delay max_retries soup retries s =
  (out, inl e, s1).
Proof.
  intros Hfail He Hover. unfold scrape_interactive_turn. rewrite Hfail.
  destruct e; try discriminate He.
  unfold on_ScrapeError.
  rewrite (proj2 (Z.ltb_lt _ _) Hover). cbn. by rewrite app_nil_r.
Qed.

Lemma turn_failure_in_budget mean_delay max_retries soup retries (s : State)
    out e s1 soup1 s2 :
  scrape_next_page env soup 0 s = (out, inl e, s1) ->
  is_ScrapeError e = true ->
  retries + 1 <= max_retries ->
  resumed env e s1 soup1 s2 ->
  scrape_interactive_turn env mean_delay max_retries soup retries s =
  (out, inr (Continue soup1 (retries + 1)), s2).
Proof.
  intros Hfail He Hin Hres. unfold scrape_interactive_turn. rewrite Hfail.
  destruct e as [| | | | | | |c u p n a k]; try discriminate He.
  unfold on_ScrapeError.
  rewrite (proj2 (Z.ltb_ge _ _) Hin).
  unfold resumed in Hres.
  destruct (cause_is_captcha (ScrapeError c u p n a k)).
  - destruct Hres as (unlocked & l & s1' & Hsolve & -> & ->).
    unfold bind. rewrite Hsolve. cbn. by rewrite app_nil_r.
  - destruct Hres as [-> ->]. cbn. by rewrite app_nil_r.
Qed.

(** An exception that is no [ScrapeError] ends the loop in the turn it
    is raised in, whatever the count of retries and the budget. *)
Lemma turn_other_exception mean_delay max_retries soup retries (s : State)
    out e s1 :
  scrape_next_page env soup 0 s = (out, inl e, s1) ->
  is_ScrapeError e = false ->
  scrape_interactive_turn env mean_delay max_retries soup retries s =
  (out, inl e, s1).
Proof.
  intros Hfail He. unfold scrape_interactive_turn. rewrite Hfail.
  by destruct e.
Qed.

Lemma fetch_fault_escapes_driver mean_delay max_retries retries fuel
    (s : State) e :
  ready s ->
  fetch_fault (first_reply env s) e ->
  scrape_interactive_loop env (S fuel) mean_delay max_retries None retries s =
  Some ([], inl e,
        session_failed (session_jar s) (page_received env None s)).
Proof.
  intros Hready He. cbn [scrape_interactive_loop].
  rewrite (turn_other_exception _ _ _ _ _ _ _ _
             (scrape_next_page_fetch_fault 0 s e Hready He)); [done|].
  unfold fetch_fault in He.
  destruct (first_reply env s); [destruct He as [_ ->]|subst]; done.
Qed.

Lemma slice_from_0 {A} (l : list A) : slice_from l 0 = l.
Proof. done. Qed.

Lemma ready_session_failed (page_soup : option Soup) (s : State) :
  ready s ->
  ready (session_failed (session_jar s) (page_received env page_soup s)).
Proof.
  unfold ready.
  change (has_next_page
            (self (session_failed (session_jar s)
                     (page_received env page_soup s))))
    with (has_next_page (self (page_received env page_soup s))).
  change (new_cookies_needed
            (self (session_failed (session_jar s)
                     (page_received env page_soup s))))
    with (new_cookies_needed (self (page_received env page_soup s))).
  by rewrite self_page_received.
Qed.

(** After a row failed to decode the driver goes on with the page of
    the failure and nothing else, and the next call, which starts at
    row 0, yields the records before that row once more. *)
Lemma decode_fault_retried_from_row_0 mean_delay max_retries
    (page_soup : option Soup) (s : State) (p : Soup) before bad rest pubs
    name :
  ready s -> page_in_hand env page_soup s p ->
  _soup_contains_captcha p = false ->
  gs_or p = before ++ bad :: rest ->
  decodes before pubs ->
  row_outcome bad = inl name ->
  1 <= max_retries ->
  let s1 := session_failed (session_jar s) (page_received env page_soup s) in
  scrape_interactive_turn env mean_delay max_retries page_soup 0 s =
    (pubs, inr (Continue (Some p) 1), s1) /\
  fst (fst (scrape_next_page env (Some p) 0 s1)) = pubs.
Proof.
  intros Hready Hpage Hcaptcha Hrows Hbefore Hbad Hmax s1.
  pose proof (scrape_next_page_decode_fault page_soup 0 s p
                before bad rest pubs name Hready Hpage Hcaptcha
                (eq_trans (slice_from_0 _) Hrows) Hbefore Hbad) as Hfail.
  split.
  - change 1 with (0 + 1).
    apply (turn_failure_in_budget _ _ _ 0 _ _ _ _ (Some p) s1 Hfail);
      [done|lia|done].
  - rewrite (scrape_next_page_decode_fault (Some p) 0 s1 p
               before bad rest pubs name); try done.
    by apply ready_session_failed.
Qed.

Lemma failing_run_pos n soup s out e s' :
  failing_run env n soup s out e s' -> (1 <= n)%nat.
Proof. destruct 1; lia. Qed.

(** A run of failures that uses up the budget ends the loop with the
    last of them. *)
Lemma failing_run_exhausts_budget mean_delay max_retries n soup s out e s' :
  failing_run env n soup s out e s' ->
  forall retries fuel,
    retries + Z.of_nat n = max_retries + 1 ->
    scrape_interactive_loop env (n + fuel) mean_delay max_retries soup
      retries s = Some (out, inl e, s').
Proof.
  induction 1 as [soup s out e s' Hfail He
                 |n soup s out e s1 soup1 s2 out' e' s' Hfail He Hres Hrun IH];
    intros retries fuel Hbudget.
  - cbn [Nat.add scrape_interactive_loop].
    rewrite (turn_failure_over_budget _ _ _ _ _ _ _ _ Hfail He); [done|lia].
  - pose proof (failing_run_pos _ _ _ _ _ _ Hrun).
    cbn [Nat.add scrape_interactive_loop].
    rewrite (turn_failure_in_budget _ _ _ _ _ _ _ _ soup1 s2 Hfail He);
      [|lia|done].
    rewrite IH; [done|lia].
Qed.

(** Before the last of them the loop is still running. *)
Lemma failing_run_within_budget mean_delay max_retries n soup s out e s' :
  failing_run env n soup s out e s' ->
  forall retries fuel,
    retries + Z.of_nat n = max_retries + 1 ->
    (fuel < n)%nat ->
    scrape_interactive_loop env fuel mean_delay max_retries soup retries s =
    None.
Proof.
  induction 1 as [soup s out e s' Hfail He
                 |n soup s out e s1 soup1 s2 out' e' s' Hfail He Hres Hrun IH];
    intros retries fuel Hbudget Hfuel.
  - by replace fuel with 0%nat by lia.
  - pose proof (failing_run_pos _ _ _ _ _ _ Hrun).
    destruct fuel as [|fuel]; [done|].
    cbn [scrape_interactive_loop].
    rewrite (turn_failure_in_budget _ _ _ _ _ _ _ _ soup1 s2 Hfail He);
      [|lia|done].
    rewrite IH; [done|lia|lia].
Qed.

Lemma set_query_url_clears_flag (url : string) (s : State) :
  new_cookies_needed (self (snd (_set_query_url url s))) = false.
Proof. done. Qed.

(** ** The claims *)

(** A GET that fails (a status other than 200, or an exception of the
    HTTP client) is not wrapped in a [ScrapeError]: [scrape_next_page]
    yields nothing and raises the [HTTPError] (or the client's
    exception) itself, the cookies of the session stored, the cursor
    and [new_cookies_needed] as they were; the driver, which handles
    [ScrapeError] only, passes it on in the same turn whatever the
    retries counted and the budget, one request having been made. *)
Theorem fetch_fault_propagates (mean_delay : Q) (max_retries retries : Z)
    (fuel : nat) (start_at : Z) (s : State) (e : Exception) :
  ready s ->
  fetch_fault (first_reply env s) e ->
  exists s',
    scrape_next_page env None start_at s = ([], inl e, s') /\
    is_ScrapeError e = false /\
    cookies (self s') = Some (session_jar s) /\
    cursor s' = cursor s /\
    new_cookies_needed (self s') = false /\
    scrape_interactive_loop env (S fuel) mean_delay max_retries None retries s
      = Some ([], inl e, s') /\
    requests (world s') =
      requests (world s) ++ [(query_url (self s), headers (self s))].
Proof.
  intros Hready He.
  exists (session_failed (session_jar s) (page_received env None s)).
  split; [by apply scrape_next_page_fetch_fault|].
  split.
  { unfold fetch_fault in He.
    destruct (first_reply env s); [destruct He as [_ ->]|subst]; done. }
  split; [done|].
  split; [by rewrite cursor_session_failed, cursor_page_received|].
  split.
  { destruct Hready as [_ Hneeded].
    change (new_cookies_needed (self (page_received env None s)) = false).
    by rewrite self_page_received. }
  split; [by apply fetch_fault_escapes_driver|].
  cbn [session_failed session_close world requests set_closed].
  by rewrite (requests_page_received None).
Qed.

(** C4. Whenever [new_cookies_needed] is set, with or without a next
    page, [scrape_next_page] ends at once in a precondition fault
    ([AssertionError], or [StopIteration] past the last page), which is
    no [ScrapeError]; it yields nothing and leaves the scraper and the
    world (no session, no request) as they were. *)
Theorem credential_gating (page_soup : option Soup) (start_at : Z)
    (s : State) :
  new_cookies_needed (self s) = true ->
  exists e,
    scrape_next_page env page_soup start_at s = ([], inl e, s) /\
    precondition_violation e = true /\
    is_ScrapeError e = false.
Proof.
  intros Hneeded. rewrite scrape_next_page_gated by done.
  eexists. split; [reflexivity|]. by destruct (has_next_page (self s)).
Qed.

(** C5. When the page in hand, fetched or supplied, holds a captcha, the
    call yields nothing and raises a [ScrapeError] whose cause is
    [CaptchaRequiredError], with that page, result number 0, and the
    user agent and cookie jar the scraper holds from then on;
    [new_cookies_needed] is set and the cursor is where it was. *)
Theorem captcha_suspends (page_soup : option Soup) (start_at : Z) (s : State)
    (p : Soup) :
  ready s -> page_in_hand env page_soup s p ->
  _soup_contains_captcha p = true ->
  exists e s',
    scrape_next_page env page_soup start_at s = ([], inl e, s') /\
    e = ScrapeError CaptchaRequiredError (next_url (self s)) p 0
          (user_agent (self s')) (session_jar s) /\
    cookies (self s') = Some (session_jar s) /\
    cause_is_captcha e = true /\
    new_cookies_needed (self s') = true /\
    cursor s' = cursor s.
Proof.
  intros Hready Hpage Hcaptcha.
  rewrite (scrape_next_page_ready page_soup start_at s p Hready Hpage).
  cbv zeta. rewrite Hcaptcha.
  eexists _, _. split; [reflexivity|]. done.
Qed.

(** C6. While [new_cookies_needed] is set, a call clears it exactly when
    it installs a cookie jar that holds both NID and GSP or issues a
    query; so a jar that lacks one of the two leaves it set. *)
Theorem new_cookies_needed_cleared_only_by (c : Call) (s : State) :
  new_cookies_needed (self s) = true ->
  new_cookies_needed (self (run_call env c s)) = false <->
  installs_session_keys c s = true \/ issues_query c = true.
Proof.
  intros Hneeded.
  assert (Hkept : new_cookies_needed (self s) = false <->
                  false = true \/ false = true)
    by (rewrite Hneeded; split; [done|by intros [?|?]]).
  destruct c as [h|ua|l|keywords|doc|page_soup start_at];
    cbn [run_call installs_session_keys issues_query].
  - exact Hkept.
  - exact Hkept.
  - unfold set_cookies. rewrite Hneeded. cbn [andb].
    destruct (has_session_keys (jar_at (world s) l)); [|exact Hkept].
    split; [auto|done].
  - split; [auto|intros _]. apply set_query_url_clears_flag.
  - split; [auto|intros _]. apply set_query_url_clears_flag.
  - rewrite scrape_next_page_gated by done. exact Hkept.
Qed.

(** C8. With [max_retries = 2], three calls in a row that end in a
    [ScrapeError] make the driver raise the third of them, with all that
    was yielded on the way, and the loop is still running after fewer
    turns; and a call that succeeds hands the next turn a count of
    retries of zero, or ends the loop. *)
Theorem retry_budget_of_two (mean_delay : Q) :
  (forall soup s out e s',
     failing_run env 3 soup s out e s' ->
     (forall fuel,
        scrape_interactive_loop env (3 + fuel) mean_delay 2 soup 0 s =
        Some (out, inl e, s')) /\
     (forall fuel, (fuel < 3)%nat ->
        scrape_interactive_loop env fuel mean_delay 2 soup 0 s = None)) /\
  (forall max_retries soup retries s out s1,
     scrape_next_page env soup 0 s = (out, inr tt, s1) ->
     exists turn s2,
       scrape_interactive_turn env mean_delay max_retries soup retries s =
       (out, inr turn, s2) /\
       (turn = Break \/ turn = Continue None 0)).
Proof.
  split.
  - intros soup s out e s' Hrun. split; intros fuel.
    + by apply (failing_run_exhausts_budget _ _ _ _ _ _ _ _ Hrun).
    + intros Hfuel.
      by apply (failing_run_within_budget _ _ _ _ _ _ _ _ Hrun 0).
  - intros max_retries soup retries s out s1 Hok.
    rewrite (turn_success _ _ _ _ _ _ _ Hok).
    destruct (has_next_page (self s1)); eauto.
Qed.

(** C9. When the reply to the first GET is a complete page without a
    link to a next page, the driver ends normally in its first turn,
    whatever the number of rows: it has yielded the publications of the
    page, the next URL is [None], [has_next_page] is false, one request
    was made and no delay was asked for. *)
Theorem single_page_query_terminates (mean_delay : Q) (max_retries : Z)
    (fuel : nat) (s : State) (pubs : list Publication) :
  ready s ->
  last_page_reply (first_reply env s) pubs ->
  exists s',
    scrape_interactive env (S fuel) mean_delay max_retries s =
      Some (pubs, inr tt, s') /\
    cursor s' = (None, false) /\
    requests (world s') =
      requests (world s) ++ [(query_url (self s), headers (self s))] /\
    sleeps (world s') = sleeps (world s).
Proof.
  intros Hready (resp & Hreply & Hstatus & Hcaptcha & Hrows & Hnav).
  assert (Hpage : page_in_hand env None s (text resp)) by (cbn; eauto).
  pose proof (scrape_next_page_ready None 0 s (text resp) Hready Hpage) as Hrun.
  cbv zeta in Hrun. rewrite Hcaptcha in Hrun.
  unfold _do_scrape, slice_from in Hrun. cbn [Z.leb Z.to_nat drop] in Hrun.
  rewrite (do_scrape_rows_decodes _ _ _ _ _ _ Hrows) in Hrun.
  unfold next_link in Hrun. rewrite Hnav in Hrun.
  unfold scrape_interactive. cbn [scrape_interactive_loop].
  rewrite (turn_success _ _ _ _ _ _ _ Hrun).
  cbn [has_next_page self session_close set__next_url _next_url].
  eexists. split; [reflexivity|]. split; [done|].
  cbn [world session_close requests set_closed sleeps].
  by rewrite (requests_page_received None), sleeps_page_received.
Qed.

(** C10. When the row at some offset of the page in hand fails to decode,
    the rows before it having decoded, the call yields their
    publications and raises the [ScrapeError] of that offset, and the
    cursor is where it was before the call. *)
Theorem decode_fault_keeps_cursor (page_soup : option Soup) (start_at : Z)
    (s : State) (p : Soup) (before : list Row) (bad : Row) (rest : list Row)
    (pubs : list Publication) (name : string) :
  ready s -> page_in_hand env page_soup s p ->
  _soup_contains_captcha p = false ->
  slice_from (gs_or p) start_at = before ++ bad :: rest ->
  decodes before pubs ->
  row_outcome bad = inl name ->
  exists s',
    scrape_next_page env page_soup start_at s =
      (pubs,
       inl (ScrapeError (PyError name) (query_url (self s)) p
              (start_at + Z.of_nat (length before)) (user_agent (self s))
              (session_jar s)),
       s') /\
    cursor s' = cursor s.
Proof.
  intros Hready Hpage Hcaptcha Hrows Hbefore Hbad.
  rewrite (scrape_next_page_decode_fault page_soup start_at s p
             before bad rest pubs name) by done.
  eexists. split; [reflexivity|].
  by rewrite cursor_session_failed, cursor_page_received.
Qed.

End Properties.

(** * More of the scraper and of the driver *)

Section Coverage.
Context `{site : Site}.
Variable env : Env.









































End Coverage.

(** * The scenarios, run *)

#[local] Existing Instance Scenario.demo_site.

(** C1. On the second page of a query the next URL differs from the
    query URL, and the GET of [scrape_next_page] goes to the query URL. *)
Theorem second_page_fetched_from_query_url :
  ready Scenario.on_second_page /\
  next_url (self Scenario.on_second_page) =
    Some "https://scholar.google.com/scholar?start=10&q=coq&hl=en" /\
  requests
    (world (snd (scrape_next_page (Scenario.serves Scenario.last_page)
                   None 0 Scenario.on_second_page))) =
  requests (world Scenario.on_second_page) ++
    [(Some "https://scholar.google.com/scholar?q=coq&hl=en",
      headers (self Scenario.on_second_page))].
Proof.
  split; [split; reflexivity|]. split; [reflexivity|].
  rewrite scrape_next_page_requests by (split; reflexivity).
  reflexivity.
Qed.

(** C2. A page whose second row fails to decode: the first call yields
    the first record and fails at offset 1; the driver keeps the page but
    no offset, and its retry yields the first record once more. *)
Theorem decode_retry_yields_records_again :
  let page := Scenario.broken_page in
  let env := Scenario.serves page in
  let e := ScrapeError (PyError "KeyError") (Some Scenario.query) page 1
             None 0%nat in
  scrape_next_page env None 0 Scenario.queried =
    (["a"], inl e, Scenario.failed_once) /\
  scrape_interactive_turn env 3 1 None 0 Scenario.queried =
    (["a"], inr (Continue (Some page) 1), Scenario.failed_once) /\
  scrape_next_page env (Some page) 0 Scenario.failed_once =
    (["a"], inl e, Scenario.failed_twice) /\
  scrape_interactive env 2 3 1 Scenario.queried =
    Some (["a"; "a"], inl e, Scenario.failed_twice).
Proof. cbv zeta. repeat split; vm_compute; reflexivity. Qed.

(** C3. A GET answered with status 503 from a state that meets the
    precondition: the call raises no [ScrapeError], and the driver,
    with two retries to tolerate, ends in its first turn with the
    [HTTPError], one request made and none repeated. *)
Lemma http_error_is_not_wrapped :
  ready Scenario.queried /\
  ~ (exists out e s',
       scrape_next_page Scenario.unavailable None 0 Scenario.queried =
         (out, inl e, s') /\
       is_ScrapeError e = true) /\
  exists s',
    scrape_interactive Scenario.unavailable 1 3 2 Scenario.queried =
      Some ([], inl (HTTPError 503 "Service Unavailable"), s') /\
    length (requests (world s')) = 1%nat.
Proof.
  split; [split; reflexivity|]. split.
  - intros (out & e & s' & Hrun & He).
    vm_compute in Hrun. by simplify_eq.
  - eexists. split; vm_compute; reflexivity.
Qed.

(** C7. A scraper without cookies scrapes a page whose response sets a
    cookie: the call returns, the session is closed, its jar holds the
    cookie, and the scraper still has no cookies. *)
Theorem cookies_lost_on_normal_exit :
  exists s',
    scrape_next_page (Scenario.serves Scenario.last_page) None 0
      Scenario.queried = (["c"], inr tt, s') /\
    cookies (self s') = None /\
    jars (world s') = [{[ "NID" := "n0" ]}] /\
    closed (world s') = 1%nat.
Proof. eexists. repeat split; vm_compute; reflexivity. Qed.

(** [fetch_fault_propagates] on the 503 reply. *)
Lemma fetch_fault_propagates_witness :
  exists s',
    scrape_next_page Scenario.unavailable None 0 Scenario.queried =
      ([], inl (HTTPError 503 "Service Unavailable"), s') /\
    is_ScrapeError (HTTPError 503 "Service Unavailable") = false /\
    cookies (self s') = Some (session_jar Scenario.queried) /\
    cursor s' = cursor Scenario.queried /\
    new_cookies_needed (self s') = false /\
    scrape_interactive_loop Scenario.unavailable 1 3 2 None 0
      Scenario.queried =
      Some ([], inl (HTTPError 503 "Service Unavailable"), s') /\
    requests (world s') =
      requests (world Scenario.queried) ++
        [(query_url (self Scenario.queried),
          headers (self Scenario.queried))].
Proof.
  apply (fetch_fault_propagates Scenario.unavailable 3 2 0 0 0
           Scenario.queried).
  - split; reflexivity.
  - split; [discriminate|reflexivity].
Defined.

(** [credential_gating] on the scraper a captcha has stopped. *)
Lemma credential_gating_witness :
  new_cookies_needed (self Scenario.blocked) = true /\
  exists e,
    scrape_next_page Scenario.challenged None 0 Scenario.blocked =
      ([], inl e, Scenario.blocked) /\
    precondition_violation e = true /\
    is_ScrapeError e = false.
Proof.
  split; [reflexivity|].
  apply (credential_gating Scenario.challenged None 0 Scenario.blocked).
  reflexivity.
Defined.

(** [captcha_suspends] on a first GET answered with a captcha. *)
Lemma captcha_suspends_witness :
  exists e s',
    scrape_next_page Scenario.challenged None 0 Scenario.queried =
      ([], inl e, s') /\
    e = ScrapeError CaptchaRequiredError
          (next_url (self Scenario.queried)) Scenario.captcha_page 0
          (user_agent (self s')) (session_jar Scenario.queried) /\
    cookies (self s') = Some (session_jar Scenario.queried) /\
    cause_is_captcha e = true /\
    new_cookies_needed (self s') = true /\
    cursor s' = cursor Scenario.queried.
Proof.
  apply (captcha_suspends Scenario.challenged None 0 Scenario.queried
           Scenario.captcha_page).
  - split; reflexivity.
  - eexists. split; [reflexivity|]. split; reflexivity.
  - reflexivity.
Defined.

(** [new_cookies_needed_cleared_only_by] on the jar of the solved
    captcha. *)
Lemma new_cookies_needed_cleared_only_by_witness :
  new_cookies_needed (self Scenario.answered) = true /\
  installs_session_keys (call_set_cookies 1%nat) Scenario.answered = true /\
  (new_cookies_needed
     (self (run_call Scenario.challenged (call_set_cookies 1%nat)
              Scenario.answered)) = false <->
   installs_session_keys (call_set_cookies 1%nat) Scenario.answered = true \/
   issues_query (call_set_cookies 1%nat) = true).
Proof.
  split; [reflexivity|]. split; [reflexivity|].
  apply (new_cookies_needed_cleared_only_by Scenario.challenged
           (call_set_cookies 1%nat) Scenario.answered).
  reflexivity.
Defined.

(** [retry_budget_of_two] on three attempts at the broken page, and on
    a first page scraped with two retries counted. *)
Lemma retry_budget_of_two_witness :
  let page := Scenario.broken_page in
  let env := Scenario.serves page in
  let e := ScrapeError (PyError "KeyError") (Some Scenario.query) page 1
             None 0%nat in
  failing_run env 3 None Scenario.queried ["a"; "a"; "a"] e
    Scenario.failed_thrice /\
  ((forall fuel,
      scrape_interactive_loop env (3 + fuel) 3 2 None 0 Scenario.queried =
      Some (["a"; "a"; "a"], inl e, Scenario.failed_thrice)) /\
   (forall fuel, (fuel < 3)%nat ->
      scrape_interactive_loop env fuel 3 2 None 0 Scenario.queried = None)) /\
  exists turn s2,
    scrape_interactive_turn (Scenario.serves Scenario.first_page) 3 2 None 2
      Scenario.queried = (["a"; "b"], inr turn, s2) /\
    (turn = Break \/ turn = Continue None 0).
Proof.
  cbv zeta.
  assert (Hrun :
    failing_run (Scenario.serves Scenario.broken_page) 3 None Scenario.queried
      (["a"] ++ ["a"] ++ ["a"])
      (ScrapeError (PyError "KeyError") (Some Scenario.query)
         Scenario.broken_page 1 None 0%nat)
      Scenario.failed_thrice).
  { eapply (failing_again (site:=Scenario.demo_site) _ 2 None Scenario.queried ["a"] _
              Scenario.failed_once (Some Scenario.broken_page)
              Scenario.failed_once);
      [vm_compute; reflexivity|reflexivity|split; reflexivity|].
    eapply (failing_again (site:=Scenario.demo_site) _ 1 _ Scenario.failed_once ["a"] _
              Scenario.failed_twice (Some Scenario.broken_page)
              Scenario.failed_twice);
      [vm_compute; reflexivity|reflexivity|split; reflexivity|].
    apply failing_once; [vm_compute; reflexivity|reflexivity]. }
  split; [exact Hrun|]. split.
  - exact (proj1 (retry_budget_of_two
                    (Scenario.serves Scenario.broken_page) 3) _ _ _ _ _ Hrun).
  - apply (proj2 (retry_budget_of_two (site:=Scenario.demo_site)
                    (Scenario.serves Scenario.first_page) 3) 2 None 2
             Scenario.queried ["a"; "b"] Scenario.on_second_page).
    vm_compute. reflexivity.
Defined.

(** [single_page_query_terminates] on a query of one page. *)
Lemma single_page_query_terminates_witness :
  exists s',
    scrape_interactive (Scenario.serves Scenario.last_page) 1 3 2
      Scenario.queried = Some (["c"], inr tt, s') /\
    cursor s' = (None, false) /\
    requests (world s') =
      requests (world Scenario.queried) ++
        [(query_url (self Scenario.queried),
          headers (self Scenario.queried))] /\
    sleeps (world s') = sleeps (world Scenario.queried).
Proof.
  apply (single_page_query_terminates (site:=Scenario.demo_site)
           (Scenario.serves Scenario.last_page)
           3 2 0 Scenario.queried ["c"]).
  - split; reflexivity.
  - eexists. split; [reflexivity|]. split; [reflexivity|].
    split; [reflexivity|]. split; [|reflexivity].
    repeat constructor.
Defined.

(** [decode_fault_keeps_cursor] on the broken page. *)
Lemma decode_fault_keeps_cursor_witness :
  exists s',
    scrape_next_page (Scenario.serves Scenario.broken_page) None 0
      Scenario.queried =
      (["a"],
       inl (ScrapeError (PyError "KeyError")
              (query_url (self Scenario.queried)) Scenario.broken_page
              (0 + Z.of_nat (length [Scenario.row_a]))
              (user_agent (self Scenario.queried))
              (session_jar Scenario.queried)),
       s') /\
    cursor s' = cursor Scenario.queried.
Proof.
  apply (decode_fault_keeps_cursor (site:=Scenario.demo_site)
           (Scenario.serves Scenario.broken_page)
           None 0 Scenario.queried Scenario.broken_page
           [Scenario.row_a] Scenario.row_broken [Scenario.row_b] ["a"]
           "KeyError").
  - split; reflexivity.
  - eexists. split; [reflexivity|]. split; reflexivity.
  - reflexivity.
  - reflexivity.
  - repeat constructor.
  - reflexivity.
Defined.

(** * The further properties, run *)
















